(** * pkg/logging: a shallow embedding of logging.go

    The package is configuration glue around the zap logging library.  The
    functions of logging.go are translated one by one; the pieces of the Go
    standard library and of zap that they call are modelled in the modules
    [strings], [fmt], [float64], [context], [os] and [zap] below, named
    after the Go packages they stand for. *)

From Stdlib Require Import ZArith NArith Ascii String List Bool Lia.
From Stdlib Require Import Floats.SpecFloat.
From stdpp Require Import base decidable option list strings gmap.

Local Open Scope string_scope.
Local Open Scope Z_scope.

(** Go's [error] interface: [nil] or a value carrying a message. *)
Definition error := option string.

(** ** Package strings *)

Module strings.

(** Go strings are byte sequences; [ascii] is one byte. *)
Definition byte_val (c : ascii) : N := N_of_ascii c.

(** [c >= utf8.RuneSelf] fails: the byte is plain ASCII. *)
Definition isASCIIByte (c : ascii) : bool := (byte_val c <? 128)%N.

(** ['a' <= c && c <= 'z'] *)
Definition isLowerByte (c : ascii) : bool :=
  (97 <=? byte_val c)%N && (byte_val c <=? 122)%N.

(** ['A' <= c && c <= 'Z'] *)
Definition isUpperByte (c : ascii) : bool :=
  (65 <=? byte_val c)%N && (byte_val c <=? 90)%N.

(** [c -= 'a' - 'A'] on a lower-case byte, other bytes unchanged. *)
Definition upperByte (c : ascii) : ascii :=
  if isLowerByte c then ascii_of_N (byte_val c - 32) else c.

Fixpoint isASCII (s : string) : bool :=
  match s with
  | EmptyString => true
  | String c s' => isASCIIByte c && isASCII s'
  end.

Fixpoint hasLower (s : string) : bool :=
  match s with
  | EmptyString => false
  | String c s' => isLowerByte c || hasLower s'
  end.

Fixpoint mapBytes (f : ascii -> ascii) (s : string) : string :=
  match s with
  | EmptyString => EmptyString
  | String c s' => String (f c) (mapBytes f s')
  end.

Section ToUpper.
(** [strings.Map(unicode.ToUpper, s)]: the path taken for a string with
    a byte outside ASCII.  The Unicode case tables are not part of the
    package, so the mapping is a parameter. *)
Variable unicodeToUpper : string -> string.

(** [strings.ToUpper]: an ASCII-only string is returned as it is when it
    has no lower-case letter and is upper-cased byte by byte otherwise;
    any other string goes through the Unicode tables. *)
Definition ToUpper (s : string) : string :=
  if isASCII s then
    if negb (hasLower s) then s else mapBytes upperByte s
  else unicodeToUpper s.
End ToUpper.

(** [strings.Contains(s, substr)] as a proposition. *)
Definition Contains (s substr : string) : Prop :=
  exists pre post : string, s = pre +:+ substr +:+ post.

End strings.

(** ** Package fmt *)

Module fmt.
(** [fmt.Errorf(prefix + "%s", arg)]: the verb [%s] copies the bytes of a
    string argument. *)
Definition Errorf_s (prefix arg : string) : error := Some (prefix +:+ arg).
End fmt.

(** ** zapcore levels *)

Module zapcore.
(** [type Level int8] with zap's constants. *)
Definition Level := Z.
Definition DebugLevel : Level := -1.
Definition InfoLevel : Level := 0.
Definition WarnLevel : Level := 1.
Definition ErrorLevel : Level := 2.
Definition DPanicLevel : Level := 3.
Definition PanicLevel : Level := 4.
Definition FatalLevel : Level := 5.
End zapcore.

(** ** Level Mapper: FindLogLevel *)

Section LevelMapper.
Variable unicodeToUpper : string -> string.

Definition FindLogLevel (logLevel : string) : zapcore.Level * error :=
  let u := strings.ToUpper unicodeToUpper logLevel in
  if String.eqb u "DEBUG" then (zapcore.DebugLevel, None)
  else if String.eqb u "INFO" then (zapcore.InfoLevel, None)
  else if String.eqb u "WARNING" then (zapcore.WarnLevel, None)
  else if String.eqb u "ERROR" then (zapcore.ErrorLevel, None)
  else if String.eqb u "FATAL" then (zapcore.FatalLevel, None)
  else if String.eqb u "PANIC" then (zapcore.PanicLevel, None)
  else (-1, fmt.Errorf_s "unknown log level: " logLevel).
End LevelMapper.

(** The six supported names with the level the specification gives each. *)
Definition supportedLevels : list (string * zapcore.Level) :=
  [ ("DEBUG", zapcore.DebugLevel); ("INFO", zapcore.InfoLevel);
    ("WARNING", zapcore.WarnLevel); ("ERROR", zapcore.ErrorLevel);
    ("FATAL", zapcore.FatalLevel); ("PANIC", zapcore.PanicLevel) ].

Definition supportedNames : list string := map fst supportedLevels.

(** Two bytes are the same letter up to case: equal, or the two cases of one
    ASCII letter (which differ by 32). *)
Definition sameLetter (c d : ascii) : Prop :=
  c = d
  \/ (strings.isUpperByte d = true /\ strings.byte_val c = (strings.byte_val d + 32)%N)
  \/ (strings.isLowerByte d = true /\ strings.byte_val d = (strings.byte_val c + 32)%N).

(** [caseVariant s t]: [s] is [t] with the case of some letters changed. *)
Inductive caseVariant : string -> string -> Prop :=
| caseVariant_nil : caseVariant "" ""
| caseVariant_cons c d s t :
    sameLetter c d -> caseVariant s t -> caseVariant (String c s) (String d t).

Fixpoint allUpper (s : string) : bool :=
  match s with
  | EmptyString => true
  | String c s' => strings.isUpperByte c && allUpper s'
  end.

(** ** float64: IEEE 754 binary64, on the Standard Library's [spec_float] *)

Module float64.
Definition prec : Z := 53.
Definition emax : Z := 1024.

(** The conversion [float64(n)] of an integer: round to nearest, ties to
    even. *)
Definition ofInt (n : Z) : spec_float := binary_normalize prec emax n 0 false.

(** The quotient [x / y], correctly rounded. *)
Definition div (x y : spec_float) : spec_float := SFdiv prec emax x y.

(** The integer part of a finite float, as an integer: the mantissa
    shifted by the exponent, the fraction bits dropped. *)
Definition intPart (m : positive) (e : Z) : Z :=
  if 0 <=? e then Z.shiftl (Zpos m) e else Z.shiftr (Zpos m) (- e).

(** [math.Trunc]: the integer value of [x], rounded toward zero; zeros,
    infinities and NaN are returned unchanged. *)
Definition Trunc (x : spec_float) : spec_float :=
  match x with
  | S754_finite s m e =>
      if 0 <=? e then x
      else binary_normalize prec emax (cond_Zopp s (intPart m e)) 0 s
  | _ => x
  end.

Definition minInt64 : Z := - 2 ^ 63.
Definition maxInt64 : Z := 2 ^ 63 - 1.

(** The conversion [int64(x)]: the fraction is discarded.  Where the value
    does not fit (or is not a number) Go leaves the result to the
    implementation; amd64 gives the smallest int64. *)
Definition toInt64 (x : spec_float) : Z :=
  match x with
  | S754_zero _ => 0
  | S754_finite s m e =>
      let v := cond_Zopp s (intPart m e) in
      if (minInt64 <=? v) && (v <=? maxInt64) then v else minInt64
  | _ => minInt64
  end.
End float64.

(** ** Package time *)

Module time.
(** [time.Millisecond], a [Duration] counted in nanoseconds. *)
Definition Millisecond : Z := 1000000.
End time.

(** ** Package context *)

Module context.
(** Values of the empty interface, as far as the package meets them: the
    nil interface, strings, integers, the value [RequestIDKey{}] of the
    package's own key type, and values of any other type, told apart by a
    tag. *)
Inductive any : Type :=
| Nil
| Str (s : string)
| Int (n : Z)
| RequestIDKeyVal
| Other (tag : nat).

#[global] Instance any_eq_dec : EqDecision any.
Proof. solve_decision. Defined.

(** Contexts built with the package's constructors.  [WithCancel] stands
    for the cancel, deadline and timeout contexts, which hold no value of
    their own. *)
Inductive Context : Type :=
| Background
| TODO
| WithValue (parent : Context) (key val : any)
| WithCancel (parent : Context).

(** [ctx.Value(key)]: the value of the innermost [WithValue] whose key
    equals [key], the nil interface when there is none. *)
Fixpoint Value (ctx : Context) (key : any) : any :=
  match ctx with
  | Background | TODO => Nil
  | WithValue parent k v => if decide (k = key) then v else Value parent key
  | WithCancel parent => Value parent key
  end.

(** The type assertion [v.(string)] in its two-result form. *)
Definition assertString (v : any) : string * bool :=
  match v with
  | Str s => (s, true)
  | _ => ("", false)
  end.
End context.

(** ** Package os *)

Module os.
(** What the process reads from its environment when a logger is built. *)
Record State : Type := mkState {
  hostname : string * error;      (* the two results of os.Hostname() *)
  pid : Z;                        (* os.Getpid() *)
  environ : gmap string string    (* the environment variables that are set *)
}.

Definition Hostname (st : State) : string * error := hostname st.
Definition Getpid (st : State) : Z := pid st.

(** [os.Getenv]: the value of the variable, empty when it is not set. *)
Definition Getenv (st : State) (key : string) : string :=
  default "" (environ st !! key).
End os.

(** ** zap: fields, encoders, cores and loggers *)

Module zap.
Inductive FieldValue : Type :=
| StringValue (s : string)
| Int64Value (n : Z).

Record Field : Type := mkField { Key : string; Val : FieldValue }.

#[global] Instance FieldValue_eq_dec : EqDecision FieldValue.
Proof. solve_decision. Defined.
#[global] Instance Field_eq_dec : EqDecision Field.
Proof. solve_decision. Defined.

(** [zap.String(key, val)] and [zap.Int(key, val)]. *)
Definition String (key val : string) : Field := mkField key (StringValue val).
Definition Int (key : string) (val : Z) : Field := mkField key (Int64Value val).

Inductive DurationEncoder : Type :=
| NanosDurationEncoder
| SecondsDurationEncoder.

(** The part of [zapcore.EncoderConfig] the package sets.  [EncodeTime]
    takes the time as its [UnixNano()] and appends to the array encoder,
    here the list of integers appended so far. *)
Record EncoderConfig : Type := mkEncoderConfig {
  TimeKey : string;
  EncodeDuration : DurationEncoder;
  EncodeTime : Z -> list Z -> list Z
}.

(** zap's own [EpochTimeEncoder] writes a float; only its place in the
    configuration matters here, the package replaces it. *)
Definition NewProductionEncoderConfig : EncoderConfig :=
  mkEncoderConfig "ts" SecondsDurationEncoder (fun _ enc => enc).

Inductive Encoder : Type :=
| PrettyEncoder                      (* newPrettyEncoder(), defined elsewhere *)
| JSONEncoder (ec : EncoderConfig).  (* zapcore.NewJSONEncoder(ec) *)

Inductive WriteSyncer : Type :=
| AddSync_Stdout.                    (* zapcore.AddSync(os.Stdout) *)

Record Core : Type := NewCore {
  coreEncoder : Encoder;
  coreSyncer : WriteSyncer;
  coreLevel : zapcore.Level
}.

Inductive Option : Type :=
| AddStacktrace (lvl : zapcore.Level)
| AddCaller.

Record Logger : Type := mkLogger {
  core : Core;
  addStack : option zapcore.Level;
  addCaller : bool;
  fields : list Field               (* the context added with With *)
}.

Definition applyOption (l : Logger) (o : Option) : Logger :=
  match o with
  | AddStacktrace lvl => mkLogger (core l) (Some lvl) (addCaller l) (fields l)
  | AddCaller => mkLogger (core l) (addStack l) true (fields l)
  end.

(** [zap.New(core, opts...)]: a logger without fields, the options applied
    in order. *)
Definition New (c : Core) (opts : list Option) : Logger :=
  fold_left applyOption opts (mkLogger c None false []).

(** [logger.With(fs...)]: a child logger carrying the parent's fields and
    the new ones after them. *)
Definition With (l : Logger) (fs : list Field) : Logger :=
  mkLogger (core l) (addStack l) (addCaller l) (fields l ++ fs)%list.

(** The keys of the fields a logger puts on every record. *)
Definition fieldKeys (l : Logger) : list string := map Key (fields l).
End zap.

(** ** logging.go *)

Definition RequestIDHeader : string := "X-Request-Id".
Definition requestIDField : string := "reqId".
Definition WgCloudEnvironmentID : string := "WG_CLOUD_ENVIRONMENT_ID".
Definition WgCloudProjectID : string := "WG_CLOUD_PROJECT_ID".
Definition WgCloudDeploymentID : string := "WG_CLOUD_DEPLOYMENT_ID".

Definition zapBaseEncoderConfig : zap.EncoderConfig :=
  let ec := zap.NewProductionEncoderConfig in
  let ec := zap.mkEncoderConfig (zap.TimeKey ec) zap.SecondsDurationEncoder (zap.EncodeTime ec) in
  zap.mkEncoderConfig "time" (zap.EncodeDuration ec) (zap.EncodeTime ec).

(** The [EncodeTime] closure of [zapJsonEncoder]; [nanos] is
    [t.UnixNano()]. *)
Definition jsonEncodeTime (nanos : Z) (enc : list Z) : list Z :=
  let millis :=
    float64.toInt64
      (float64.Trunc
         (float64.div (float64.ofInt nanos) (float64.ofInt time.Millisecond))) in
  (enc ++ [millis])%list.

Definition zapJsonEncoder : zap.Encoder :=
  let ec := zapBaseEncoderConfig in
  let ec := zap.mkEncoderConfig (zap.TimeKey ec) (zap.EncodeDuration ec) jsonEncodeTime in
  zap.JSONEncoder ec.

Definition attachBaseFields (st : os.State) (logger : zap.Logger) : zap.Logger :=
  let '(host, err) := os.Hostname st in
  let host := if err is Some _ then "unknown" else host in
  let logger := zap.With logger [zap.String "hostname" host; zap.Int "pid" (os.Getpid st)] in
  let environmentID := os.Getenv st WgCloudEnvironmentID in
  let logger :=
    if negb (String.eqb environmentID "")
    then zap.With logger [zap.String "environmentID" environmentID] else logger in
  let projectID := os.Getenv st WgCloudProjectID in
  let logger :=
    if negb (String.eqb projectID "")
    then zap.With logger [zap.String "projectID" projectID] else logger in
  let deploymentID := os.Getenv st WgCloudDeploymentID in
  let logger :=
    if negb (String.eqb projectID "")
    then zap.With logger [zap.String "deploymentID" deploymentID] else logger in
  logger.

Definition newZapLogger (st : os.State) (syncer : zap.WriteSyncer)
    (prettyLogging debug : bool) (level : zapcore.Level) : zap.Logger :=
  let encoder := if prettyLogging then zap.PrettyEncoder else zapJsonEncoder in
  let zapOpts : list zap.Option := [] in
  let zapOpts :=
    if debug
    then ((zapOpts ++ [zap.AddStacktrace zapcore.ErrorLevel]) ++ [zap.AddCaller])%list
    else zapOpts in
  let zapLogger := zap.New (zap.NewCore encoder syncer level) zapOpts in
  if prettyLogging then zapLogger
  else attachBaseFields st zapLogger.

Definition New (st : os.State) (prettyLogging debug : bool) (level : zapcore.Level)
    : zap.Logger :=
  newZapLogger st zap.AddSync_Stdout prettyLogging debug level.

Definition RequestIDFromContext (ctx : option context.Context) : string :=
  match ctx with
  | None => ""
  | Some c =>
      let '(requestID, ok) := context.assertString (context.Value c context.RequestIDKeyVal) in
      if negb ok then "" else requestID
  end.

Definition WithRequestID (reqID : string) : zap.Field :=
  zap.String requestIDField reqID.

Definition WithRequestIDFromContext (ctx : option context.Context) : zap.Field :=
  WithRequestID (RequestIDFromContext ctx).

(** ** Vocabulary of the specification *)

(** The keys of the base field set of a structured logger. *)
Definition baseFieldKeys : list string :=
  ["hostname"; "pid"; "environmentID"; "projectID"; "deploymentID"].

(** An environment variable is unset or set to the empty string. *)
Definition unsetOrEmpty (st : os.State) (key : string) : Prop :=
  os.environ st !! key = None \/ os.environ st !! key = Some "".

(** An environment variable is set to a non-empty string [v]. *)
Definition setTo (st : os.State) (key v : string) : Prop :=
  os.environ st !! key = Some v /\ v <> "".

(** [stored ctx key v]: [v] is the value set under [key] in [ctx], that is
    the value of the nearest enclosing [WithValue] for that key. *)
Inductive stored : context.Context -> context.any -> context.any -> Prop :=
| stored_here parent key v :
    stored (context.WithValue parent key v) key v
| stored_outer parent k' v' key v :
    k' <> key -> stored parent key v ->
    stored (context.WithValue parent k' v') key v
| stored_cancel parent key v :
    stored parent key v -> stored (context.WithCancel parent) key v.

(** [neverSet ctx key]: no [WithValue] of the chain uses [key]. *)
Inductive neverSet : context.Context -> context.any -> Prop :=
| neverSet_background key : neverSet context.Background key
| neverSet_todo key : neverSet context.TODO key
| neverSet_value parent k' v' key :
    k' <> key -> neverSet parent key ->
    neverSet (context.WithValue parent k' v') key
| neverSet_cancel parent key :
    neverSet parent key -> neverSet (context.WithCancel parent) key.

Definition isString (v : context.any) : Prop := exists s, v = context.Str s.

(** The options [newZapLogger] passes to [zap.New]. *)
Definition debugOptions (debug : bool) : list zap.Option :=
  if debug then [zap.AddStacktrace zapcore.ErrorLevel; zap.AddCaller] else [].

(** The fields [attachBaseFields] adds, read off the three branches. *)
Definition baseFields (st : os.State) : list zap.Field :=
  let host := if snd (os.Hostname st) is Some _ then "unknown" else fst (os.Hostname st) in
  let environmentID := os.Getenv st WgCloudEnvironmentID in
  let projectID := os.Getenv st WgCloudProjectID in
  let deploymentID := os.Getenv st WgCloudDeploymentID in
  ([zap.String "hostname" host; zap.Int "pid" (os.Getpid st)]
   ++ (if String.eqb environmentID "" then [] else [zap.String "environmentID" environmentID])
   ++ (if String.eqb projectID "" then [] else [zap.String "projectID" projectID])
   ++ (if String.eqb projectID "" then [] else [zap.String "deploymentID" deploymentID]))%list.

(** The identity stands in for the Unicode tables where a concrete mapping
    is needed; the inputs below are ASCII and never reach it. *)
Definition asciiOnly (s : string) : string := s.

(** ** Sample inputs *)

(** A process with a deployment identifier and no project identifier. *)
Definition stNoProject : os.State :=
  os.mkState ("build-7", None) 4242 {[ WgCloudDeploymentID := "dep-1" ]}.

(** A process with a project identifier and no deployment identifier. *)
Definition stNoDeployment : os.State :=
  os.mkState ("build-7", None) 4242 {[ WgCloudProjectID := "proj-1" ]}.

(** A process whose hostname lookup fails. *)
Definition stNoHostname : os.State :=
  os.mkState ("", Some "hostname: lookup failed") 4242 ∅.

(** A request context with the identifier set, below a cancel context and
    an unrelated value. *)
Definition ctxWithID : context.Context :=
  context.WithValue
    (context.WithCancel
       (context.WithValue context.Background context.RequestIDKeyVal (context.Str "abc123")))
    (context.Other 1) (context.Int 7).

(** The same with the identifier shadowed by a value that is not a string. *)
Definition ctxShadowed : context.Context :=
  context.WithValue ctxWithID context.RequestIDKeyVal (context.Int 5).

(** A request context without identifier. *)
Definition ctxNoID : context.Context :=
  context.WithCancel (context.WithValue context.TODO (context.Str "user") (context.Str "u1")).

(** ** Derived contexts *)

(** One step of deriving a context from its parent: a [WithValue] or one of
    the cancelling constructors. *)
Inductive Layer : Type :=
| ValueLayer (key val : context.any)
| CancelLayer.

Definition addLayer (ctx : context.Context) (l : Layer) : context.Context :=
  match l with
  | ValueLayer k v => context.WithValue ctx k v
  | CancelLayer => context.WithCancel ctx
  end.

(** [derive ctx layers]: the context obtained from [ctx] by the steps of
    [layers], the first of the list applied first. *)
Definition derive (ctx : context.Context) (layers : list Layer) : context.Context :=
  fold_left addLayer layers ctx.

(** The layer does not set [key]. *)
Definition avoids (key : context.any) (l : Layer) : Prop :=
  match l with
  | ValueLayer k _ => k <> key
  | CancelLayer => True
  end.

(** ** What a logger is built from *)

(** The host name [attachBaseFields] uses: the result of the lookup, or
    "unknown" when the lookup failed. *)
Definition effectiveHost (st : os.State) : string :=
  match os.Hostname st with
  | (_, Some _) => "unknown"
  | (name, None) => name
  end.

(** Two process states give the same host name, process id and values of
    the three WG_CLOUD variables as [os.Getenv] reports them. *)
Definition sameLoggerInputs (st st' : os.State) : Prop :=
  effectiveHost st = effectiveHost st'
  /\ os.Getpid st = os.Getpid st'
  /\ os.Getenv st WgCloudEnvironmentID = os.Getenv st' WgCloudEnvironmentID
  /\ os.Getenv st WgCloudProjectID = os.Getenv st' WgCloudProjectID
  /\ os.Getenv st WgCloudDeploymentID = os.Getenv st' WgCloudDeploymentID.

(** A process with all three identifiers, an unrelated variable and a
    working hostname lookup. *)
Definition stCloud : os.State :=
  os.mkState ("node-3", None) 811
    (<[ WgCloudEnvironmentID := "env-9" ]>
       (<[ WgCloudProjectID := "proj-1" ]>
          (<[ WgCloudDeploymentID := "dep-1" ]> {[ "HOME" := "/root" ]}))).

(** A process with the project variable set to the empty string and an
    unrelated variable, whose lookup failed with a name left over. *)
Definition stEmptyVars : os.State :=
  os.mkState ("stale-name", Some "hostname: permission denied") 4242
    (<[ WgCloudProjectID := "" ]> {[ "PATH" := "/bin" ]}).

(** The layers a request handler adds on top of the context that carries
    the identifier. *)
Definition handlerLayers : list Layer :=
  [CancelLayer; ValueLayer (context.Other 1) (context.Int 7);
   ValueLayer (context.Str "reqId") (context.Str "other"); CancelLayer].

(** * Properties *)

(** ** Bytes and upper-casing *)

Ltac byte_arith :=
  unfold strings.isUpperByte, strings.isLowerByte, strings.isASCIIByte,
    strings.byte_val in *;
  repeat match goal with
  | H : _ && _ = true |- _ => apply andb_prop in H; destruct H
  | H : (_ <=? _)%N = true |- _ => apply N.leb_le in H
  | H : (_ <? _)%N = true |- _ => apply N.ltb_lt in H
  end.

Lemma upper_is_ascii c :
  strings.isUpperByte c = true -> strings.isASCIIByte c = true.
Proof. intros H. byte_arith. apply N.ltb_lt. lia. Qed.

Lemma upper_not_lower c :
  strings.isUpperByte c = true -> strings.isLowerByte c = false.
Proof.
  intros H. byte_arith. apply andb_false_iff. left. apply N.leb_gt. lia.
Qed.

Lemma upperByte_upper c :
  strings.isUpperByte c = true -> strings.upperByte c = c.
Proof.
  intros H. unfold strings.upperByte. now rewrite (upper_not_lower c H).
Qed.

(** A case variant of an upper-case letter is an ASCII byte that
    [upperByte] sends back to the letter. *)
Lemma sameLetter_upper c d :
  sameLetter c d -> strings.isUpperByte d = true ->
  strings.isASCIIByte c = true /\ strings.upperByte c = d.
Proof.
  intros [-> | [[_ Hc] | [Hl _]]] Hd.
  - split; [now apply upper_is_ascii | now apply upperByte_upper].
  - assert (Hlow : strings.isLowerByte c = true).
    { byte_arith. apply andb_true_intro.
      split; apply N.leb_le; unfold strings.byte_val in Hc; lia. }
    split.
    + byte_arith. apply N.ltb_lt. unfold strings.byte_val in Hc. lia.
    + unfold strings.upperByte. rewrite Hlow, Hc.
      replace (strings.byte_val d + 32 - 32)%N with (N_of_ascii d)
        by (unfold strings.byte_val; lia).
      apply ascii_N_embedding.
  - rewrite (upper_not_lower d Hd) in Hl. discriminate.
Qed.

Lemma mapBytes_no_lower s :
  strings.hasLower s = false -> strings.mapBytes strings.upperByte s = s.
Proof.
  induction s as [|c s IH]; simpl; [reflexivity|].
  intros H. apply orb_false_elim in H. destruct H as [Hc Hs].
  unfold strings.upperByte at 1. rewrite Hc. now rewrite IH.
Qed.

Lemma caseVariant_upper s t :
  caseVariant s t -> allUpper t = true ->
  strings.isASCII s = true /\ strings.mapBytes strings.upperByte s = t.
Proof.
  induction 1 as [|c d s t Hcd Hst IH]; simpl; [now split|].
  intros H. apply andb_prop in H. destruct H as [Hd Ht].
  destruct (sameLetter_upper c d Hcd Hd) as [Ha Hu].
  destruct (IH Ht) as [IHa IHm].
  rewrite Ha, IHa, Hu, IHm. now split.
Qed.

Lemma append_empty_r (s : string) : s +:+ "" = s.
Proof.
  induction s as [|c s IH]; [reflexivity|].
  change (String c (s +:+ "") = String c s). now rewrite IH.
Qed.

Section LevelMapperFacts.
Variable unicodeToUpper : string -> string.

(** Upper-casing any case variant of an upper-case ASCII word gives the
    word back; the Unicode path is never taken. *)
Lemma ToUpper_caseVariant s t :
  caseVariant s t -> allUpper t = true ->
  strings.ToUpper unicodeToUpper s = t.
Proof.
  intros Hv Ht. destruct (caseVariant_upper s t Hv Ht) as [Ha Hm].
  unfold strings.ToUpper. rewrite Ha.
  destruct (strings.hasLower s) eqn:Hl; simpl; [exact Hm|].
  now rewrite <- Hm, mapBytes_no_lower.
Qed.

(** The result of [FindLogLevel] on an input whose upper-casing is one of
    the six names. *)
Lemma FindLogLevel_of_upper s name lvl :
  In (name, lvl) supportedLevels ->
  strings.ToUpper unicodeToUpper s = name ->
  FindLogLevel unicodeToUpper s = (lvl, None).
Proof.
  intros Hin Hu. unfold FindLogLevel. rewrite Hu.
  simpl in Hin.
  repeat (destruct Hin as [Hin | Hin];
          [injection Hin as <- <-; reflexivity|]).
  contradiction.
Qed.

Lemma supportedLevels_upper name lvl :
  In (name, lvl) supportedLevels -> allUpper name = true.
Proof.
  simpl. intros Hin.
  repeat (destruct Hin as [Hin | Hin];
          [injection Hin as <- <-; reflexivity|]).
  contradiction.
Qed.

(** C2: for each of the six supported names and each letter-case variant
    [s] of it, [FindLogLevel] returns the level of that name and a nil
    error; every case variant of WARNING gives zap's warn level. *)
Theorem FindLogLevel_case_insensitive name lvl s :
  In (name, lvl) supportedLevels ->
  caseVariant s name ->
  FindLogLevel unicodeToUpper s = (lvl, None)
  /\ (name = "WARNING" ->
      FindLogLevel unicodeToUpper s = (zapcore.WarnLevel, None)).
Proof.
  intros Hin Hv.
  assert (Hu : strings.ToUpper unicodeToUpper s = name).
  { apply ToUpper_caseVariant; [exact Hv|].
    exact (supportedLevels_upper name lvl Hin). }
  split.
  - exact (FindLogLevel_of_upper s name lvl Hin Hu).
  - intros ->. apply (FindLogLevel_of_upper s "WARNING"); [|exact Hu].
    simpl. right. right. left. reflexivity.
Qed.

(** C3: when the upper-cased input is none of the six names,
    [FindLogLevel] returns -1 with a non-nil error whose message is
    "unknown log level: " followed by the input itself, so the message
    contains the input verbatim; no level is returned as a success. *)
Theorem FindLogLevel_unknown s :
  ~ In (strings.ToUpper unicodeToUpper s) supportedNames ->
  FindLogLevel unicodeToUpper s = (-1, Some ("unknown log level: " +:+ s))
  /\ (exists msg, snd (FindLogLevel unicodeToUpper s) = Some msg
                  /\ strings.Contains msg s)
  /\ snd (FindLogLevel unicodeToUpper s) <> None.
Proof.
  intros Hnot.
  assert (E : FindLogLevel unicodeToUpper s
              = (-1, Some ("unknown log level: " +:+ s))).
  { unfold FindLogLevel.
    repeat match goal with
    | |- context [String.eqb ?u ?n] =>
        destruct (String.eqb_spec u n) as [Heq | _];
        [exfalso; apply Hnot; rewrite Heq; simpl; tauto|]
    end.
    reflexivity. }
  rewrite E. split; [reflexivity|]. split; [|discriminate].
  exists ("unknown log level: " +:+ s). split; [reflexivity|].
  exists "unknown log level: ", "". now rewrite append_empty_r.
Qed.
End LevelMapperFacts.

Lemma FindLogLevel_case_insensitive_witness :
  In ("WARNING", zapcore.WarnLevel) supportedLevels
  /\ caseVariant "wArning" "WARNING"
  /\ FindLogLevel asciiOnly "wArning" = (zapcore.WarnLevel, None).
Proof.
  assert (Hin : In ("WARNING", zapcore.WarnLevel) supportedLevels).
  { simpl. right. right. left. reflexivity. }
  assert (Hv : caseVariant "wArning" "WARNING").
  { repeat (apply caseVariant_cons;
            [first [ left; reflexivity
                   | right; left; split; reflexivity ] |]).
    apply caseVariant_nil. }
  split; [exact Hin|]. split; [exact Hv|].
  exact (proj1 (FindLogLevel_case_insensitive asciiOnly "WARNING"
                  zapcore.WarnLevel "wArning" Hin Hv)).
Defined.

Lemma FindLogLevel_unknown_witness :
  ~ In (strings.ToUpper asciiOnly "nonsense") supportedNames
  /\ FindLogLevel asciiOnly "nonsense" = (-1, Some "unknown log level: nonsense")
  /\ (exists msg, snd (FindLogLevel asciiOnly "nonsense") = Some msg
                  /\ strings.Contains msg "nonsense").
Proof.
  assert (Hnot : ~ In (strings.ToUpper asciiOnly "nonsense") supportedNames).
  { vm_compute. intros H.
    repeat (destruct H as [H | H]; [discriminate H|]). exact H. }
  split; [exact Hnot|].
  destruct (FindLogLevel_unknown asciiOnly "nonsense" Hnot) as (E & C & _).
  split; [exact E | exact C].
Defined.

(** No partial match: a prefix of a supported name is not a level name. *)
Example FindLogLevel_WARN :
  FindLogLevel asciiOnly "WARN" = (-1, Some "unknown log level: WARN").
Proof. reflexivity. Qed.

(** ** Structured timestamps *)

(** The specification's example: 1,500,499 ns is 1 ms. *)
Example jsonEncodeTime_small : jsonEncodeTime 1500499 [] = [1].
Proof. vm_compute. reflexivity. Qed.

(** C4: the structured timestamp is not always the truncated quotient.  A
    time of 1,700,000,000,000,999,999 ns (14 November 2023) is 1 ns short of
    a whole millisecond; [float64(nanos)] rounds it to
    1,700,000,000,000,999,936, the quotient by 1e6 rounds to
    1,700,000,000,001 exactly, and the encoder appends that millisecond,
    one more than the truncated 1,700,000,000,000. *)
Theorem jsonEncodeTime_rounds_up :
  jsonEncodeTime 1700000000000999999 [] = [1700000000001]
  /\ Z.quot 1700000000000999999 time.Millisecond = 1700000000000
  /\ float64.ofInt 1700000000000999999
     = S754_finite false 6640625000003906 8.
Proof. vm_compute. repeat split. Qed.

(** ** Request identifiers *)

Lemma Value_stored ctx key v : stored ctx key v -> context.Value ctx key = v.
Proof.
  induction 1 as [parent key v | parent k' v' key v Hne _ IH | parent key v _ IH];
    simpl.
  - now rewrite decide_True.
  - now rewrite decide_False.
  - exact IH.
Qed.

Lemma Value_neverSet ctx key : neverSet ctx key -> context.Value ctx key = context.Nil.
Proof.
  induction 1 as [key | key | parent k' v' key Hne _ IH | parent key _ IH];
    simpl; try reflexivity.
  - now rewrite decide_False.
  - exact IH.
Qed.

(** Every context either holds a value under a key or never had it set. *)
Lemma stored_or_neverSet ctx key :
  (exists v, stored ctx key v) \/ neverSet ctx key.
Proof.
  induction ctx as [| | parent IH k v | parent IH].
  - right. constructor.
  - right. constructor.
  - destruct (decide (k = key)) as [-> | Hne].
    + left. exists v. constructor.
    + destruct IH as [[w Hw] | Hn].
      * left. exists w. now constructor.
      * right. now constructor.
  - destruct IH as [[w Hw] | Hn].
    + left. exists w. now constructor.
    + right. now constructor.
Qed.

(** C5: [RequestIDFromContext] is a total function to strings (it has no
    error result and no panicking step).  On the nil context it returns the
    empty string; on a context where the key was never set it returns the
    empty string; where a string is stored under the key it returns that
    string; where the stored value is not a string it returns the empty
    string.  These cases cover every context. *)
Theorem RequestIDFromContext_total :
  RequestIDFromContext None = ""
  /\ (forall ctx, neverSet ctx context.RequestIDKeyVal ->
        RequestIDFromContext (Some ctx) = "")
  /\ (forall ctx s, stored ctx context.RequestIDKeyVal (context.Str s) ->
        RequestIDFromContext (Some ctx) = s)
  /\ (forall ctx v, stored ctx context.RequestIDKeyVal v -> ~ isString v ->
        RequestIDFromContext (Some ctx) = "")
  /\ (forall ctx, neverSet ctx context.RequestIDKeyVal
                  \/ exists v, stored ctx context.RequestIDKeyVal v).
Proof.
  split; [reflexivity|]. split; [|split; [|split]].
  - intros ctx H. unfold RequestIDFromContext.
    now rewrite (Value_neverSet _ _ H).
  - intros ctx s H. unfold RequestIDFromContext.
    now rewrite (Value_stored _ _ _ H).
  - intros ctx v H Hv. unfold RequestIDFromContext.
    rewrite (Value_stored _ _ _ H).
    destruct v; try reflexivity. exfalso. apply Hv. now eexists.
  - intros ctx.
    destruct (stored_or_neverSet ctx context.RequestIDKeyVal); tauto.
Qed.

(** C6: [WithRequestID id] is the string field with key "reqId" and value
    [id]. *)
Theorem WithRequestID_field (id : string) :
  WithRequestID id = zap.mkField "reqId" (zap.StringValue id)
  /\ zap.Key (WithRequestID id) = "reqId"
  /\ zap.Val (WithRequestID id) = zap.StringValue id.
Proof. repeat split. Qed.

(** C7: [WithRequestIDFromContext] is [WithRequestID] after
    [RequestIDFromContext]. *)
Theorem WithRequestIDFromContext_compose (ctx : option context.Context) :
  WithRequestIDFromContext ctx = WithRequestID (RequestIDFromContext ctx).
Proof. reflexivity. Qed.

(** ** Logger construction *)

Lemma applyOption_fields l o : zap.fields (zap.applyOption l o) = zap.fields l.
Proof. destruct o; reflexivity. Qed.

Lemma fold_applyOption_fields opts l :
  zap.fields (fold_left zap.applyOption opts l) = zap.fields l.
Proof.
  revert l. induction opts as [|o opts IH]; intros l; simpl; [reflexivity|].
  now rewrite IH, applyOption_fields.
Qed.

(** A logger fresh from [zap.New] carries no field. *)
Lemma New_fields c opts : zap.fields (zap.New c opts) = [].
Proof. unfold zap.New. now rewrite fold_applyOption_fields. Qed.

Lemma With_fields l fs : zap.fields (zap.With l fs) = (zap.fields l ++ fs)%list.
Proof. reflexivity. Qed.

Lemma attachBaseFields_fields st logger :
  zap.fields (attachBaseFields st logger) = (zap.fields logger ++ baseFields st)%list.
Proof.
  unfold attachBaseFields, baseFields.
  destruct (os.Hostname st) as [host err]. simpl fst. simpl snd.
  destruct (String.eqb (os.Getenv st WgCloudEnvironmentID) "");
    destruct (String.eqb (os.Getenv st WgCloudProjectID) "");
    simpl negb; cbv iota; rewrite ?With_fields, <- ?app_assoc; reflexivity.
Qed.

Lemma New_structured_fields st debug level :
  zap.fields (New st false debug level) = baseFields st.
Proof.
  unfold New, newZapLogger. cbv iota.
  now rewrite attachBaseFields_fields, New_fields.
Qed.

Lemma Getenv_unsetOrEmpty st key : unsetOrEmpty st key -> os.Getenv st key = "".
Proof. unfold os.Getenv. intros [-> | ->]; reflexivity. Qed.

Lemma Getenv_setTo st key v :
  setTo st key v -> os.Getenv st key = v /\ String.eqb (os.Getenv st key) "" = false.
Proof.
  unfold os.Getenv. intros [-> Hne]. simpl. split; [reflexivity|].
  now apply String.eqb_neq.
Qed.

(** C1: with WG_CLOUD_PROJECT_ID unset or empty and WG_CLOUD_DEPLOYMENT_ID
    set to a non-empty value, the logger built by [New] with
    [prettyLogging = false] has no field with key "deploymentID". *)
Theorem New_no_deploymentID_without_projectID st debug level d :
  unsetOrEmpty st WgCloudProjectID ->
  setTo st WgCloudDeploymentID d ->
  ~ In "deploymentID" (zap.fieldKeys (New st false debug level)).
Proof.
  intros Hp _. unfold zap.fieldKeys.
  rewrite New_structured_fields. unfold baseFields.
  rewrite (Getenv_unsetOrEmpty _ _ Hp). simpl String.eqb. cbv iota.
  destruct (String.eqb (os.Getenv st WgCloudEnvironmentID) ""); simpl;
    intros H; repeat (destruct H as [H | H]; [discriminate H|]); exact H.
Qed.

(** C10: with WG_CLOUD_PROJECT_ID set to a non-empty value and
    WG_CLOUD_DEPLOYMENT_ID unset or empty, the logger built by [New] with
    [prettyLogging = false] carries a "deploymentID" field whose value is
    the empty string; it is the last field, right after "projectID". *)
Theorem New_empty_deploymentID_with_projectID st debug level p :
  setTo st WgCloudProjectID p ->
  unsetOrEmpty st WgCloudDeploymentID ->
  In (zap.String "deploymentID" "") (zap.fields (New st false debug level))
  /\ exists pre,
       zap.fields (New st false debug level)
       = (pre ++ [zap.String "projectID" p; zap.String "deploymentID" ""])%list.
Proof.
  intros Hp Hd.
  destruct (Getenv_setTo _ _ _ Hp) as [Ep Ene].
  assert (E : exists pre,
             zap.fields (New st false debug level)
             = (pre ++ [zap.String "projectID" p; zap.String "deploymentID" ""])%list).
  { rewrite New_structured_fields. unfold baseFields.
    rewrite Ene, Ep, (Getenv_unsetOrEmpty _ _ Hd).
    eexists. rewrite !app_assoc, <- app_assoc. reflexivity. }
  split; [|exact E].
  destruct E as [pre ->]. apply in_or_app. right. simpl. tauto.
Qed.

(** C8: for every debug flag, level and environment the logger built with
    [prettyLogging = true] is the logger [zap.New] returned, untouched: it
    has no field at all, so none of the base keys, whereas the logger built
    with [prettyLogging = false] has the "hostname" and "pid" fields. *)
Theorem New_pretty_no_base_fields st debug level :
  New st true debug level
  = zap.New (zap.NewCore zap.PrettyEncoder zap.AddSync_Stdout level) (debugOptions debug)
  /\ zap.fields (New st true debug level) = []
  /\ Forall (fun k => ~ In k (zap.fieldKeys (New st true debug level))) baseFieldKeys
  /\ In "hostname" (zap.fieldKeys (New st false debug level))
  /\ In "pid" (zap.fieldKeys (New st false debug level)).
Proof.
  assert (E : New st true debug level
              = zap.New (zap.NewCore zap.PrettyEncoder zap.AddSync_Stdout level)
                  (debugOptions debug)).
  { unfold New, newZapLogger, debugOptions. destruct debug; reflexivity. }
  assert (F : zap.fields (New st true debug level) = []).
  { rewrite E. apply New_fields. }
  split; [exact E|]. split; [exact F|]. split; [|split].
  - unfold zap.fieldKeys. rewrite F. simpl.
    apply Forall_forall. intros k _ [].
  - unfold zap.fieldKeys. rewrite New_structured_fields. simpl. tauto.
  - unfold zap.fieldKeys. rewrite New_structured_fields. simpl. tauto.
Qed.

(** C9: when [os.Hostname] returns an error, [attachBaseFields] (a total
    function with a logger as its only result) adds the field "hostname"
    with the value "unknown" first, and the logger built by [New] starts
    with that field; the name and the error that came back from the lookup
    leave no trace: two processes that differ only in them get the same
    logger. *)
Theorem attachBaseFields_hostname_unknown st logger name e :
  os.Hostname st = (name, Some e) ->
  (exists rest,
     zap.fields (attachBaseFields st logger)
     = (zap.fields logger ++ zap.String "hostname" "unknown" :: rest)%list)
  /\ (forall debug level,
        exists rest,
          zap.fields (New st false debug level)
          = zap.String "hostname" "unknown" :: rest)
  /\ (forall st' name' e',
        os.Hostname st' = (name', Some e') ->
        os.Getpid st' = os.Getpid st ->
        os.environ st' = os.environ st ->
        attachBaseFields st' logger = attachBaseFields st logger).
Proof.
  intros H. split; [|split].
  - rewrite attachBaseFields_fields. unfold baseFields. rewrite H. simpl.
    eexists. reflexivity.
  - intros debug level. rewrite New_structured_fields.
    unfold baseFields. rewrite H. simpl. eexists. reflexivity.
  - intros st' name' e' H' Hpid Henv.
    unfold attachBaseFields, os.Getenv. now rewrite H, H', Hpid, Henv.
Qed.

(** The "deploymentID" field is present exactly when the project identifier
    is non-empty; the deployment variable plays no part. *)
Lemma deploymentID_iff_projectID st debug level :
  In "deploymentID" (zap.fieldKeys (New st false debug level))
  <-> os.Getenv st WgCloudProjectID <> "".
Proof.
  unfold zap.fieldKeys. rewrite New_structured_fields. unfold baseFields.
  destruct (String.eqb_spec (os.Getenv st WgCloudProjectID) "") as [E | E];
    destruct (String.eqb (os.Getenv st WgCloudEnvironmentID) ""); simpl.
  all: split; intros H; try (exfalso; now apply H); try exact E; try tauto.
  all: repeat (destruct H as [H | H]; [discriminate H|]); destruct H.
Qed.

(** ** Witnesses *)

Lemma New_no_deploymentID_without_projectID_witness :
  unsetOrEmpty stNoProject WgCloudProjectID
  /\ setTo stNoProject WgCloudDeploymentID "dep-1"
  /\ ~ In "deploymentID" (zap.fieldKeys (New stNoProject false true zapcore.InfoLevel)).
Proof.
  assert (Hp : unsetOrEmpty stNoProject WgCloudProjectID).
  { left. vm_compute. reflexivity. }
  assert (Hd : setTo stNoProject WgCloudDeploymentID "dep-1").
  { split; [vm_compute; reflexivity | discriminate]. }
  split; [exact Hp|]. split; [exact Hd|].
  exact (New_no_deploymentID_without_projectID stNoProject true
           zapcore.InfoLevel "dep-1" Hp Hd).
Defined.

Lemma New_empty_deploymentID_with_projectID_witness :
  setTo stNoDeployment WgCloudProjectID "proj-1"
  /\ unsetOrEmpty stNoDeployment WgCloudDeploymentID
  /\ In (zap.String "deploymentID" "")
       (zap.fields (New stNoDeployment false false zapcore.InfoLevel)).
Proof.
  assert (Hp : setTo stNoDeployment WgCloudProjectID "proj-1").
  { split; [vm_compute; reflexivity | discriminate]. }
  assert (Hd : unsetOrEmpty stNoDeployment WgCloudDeploymentID).
  { left. vm_compute. reflexivity. }
  split; [exact Hp|]. split; [exact Hd|].
  exact (proj1 (New_empty_deploymentID_with_projectID stNoDeployment false
                  zapcore.InfoLevel "proj-1" Hp Hd)).
Defined.

Lemma New_pretty_no_base_fields_witness :
  zap.fields (New stNoDeployment true true zapcore.DebugLevel) = []
  /\ In "hostname" (zap.fieldKeys (New stNoDeployment false true zapcore.DebugLevel)).
Proof.
  destruct (New_pretty_no_base_fields stNoDeployment true zapcore.DebugLevel)
    as (_ & F & _ & H & _).
  split; [exact F | exact H].
Defined.

Lemma attachBaseFields_hostname_unknown_witness :
  os.Hostname stNoHostname = ("", Some "hostname: lookup failed")
  /\ exists rest,
       zap.fields (New stNoHostname false false zapcore.InfoLevel)
       = zap.String "hostname" "unknown" :: rest.
Proof.
  assert (H : os.Hostname stNoHostname = ("", Some "hostname: lookup failed"))
    by reflexivity.
  split; [exact H|].
  exact (proj1 (proj2 (attachBaseFields_hostname_unknown stNoHostname
                         (zap.New (zap.NewCore zapJsonEncoder zap.AddSync_Stdout zapcore.InfoLevel) [])
                         "" "hostname: lookup failed" H))
           false zapcore.InfoLevel).
Defined.

Lemma RequestIDFromContext_total_witness :
  stored ctxWithID context.RequestIDKeyVal (context.Str "abc123")
  /\ RequestIDFromContext (Some ctxWithID) = "abc123"
  /\ neverSet ctxNoID context.RequestIDKeyVal
  /\ RequestIDFromContext (Some ctxNoID) = ""
  /\ stored ctxShadowed context.RequestIDKeyVal (context.Int 5)
  /\ RequestIDFromContext (Some ctxShadowed) = "".
Proof.
  destruct RequestIDFromContext_total as (_ & Hn & Hs & Hw & _).
  assert (S1 : stored ctxWithID context.RequestIDKeyVal (context.Str "abc123")).
  { apply stored_outer; [discriminate|]. apply stored_cancel. apply stored_here. }
  assert (N1 : neverSet ctxNoID context.RequestIDKeyVal).
  { apply neverSet_cancel. apply neverSet_value; [discriminate|].
    apply neverSet_todo. }
  assert (S2 : stored ctxShadowed context.RequestIDKeyVal (context.Int 5)).
  { apply stored_here. }
  split; [exact S1|]. split; [exact (Hs _ _ S1)|].
  split; [exact N1|]. split; [exact (Hn _ N1)|].
  split; [exact S2|].
  apply (Hw _ _ S2). intros [s Hs']. discriminate Hs'.
Defined.

(** * Further properties of the level mapper *)

Lemma byte_val_of_N n : (n < 256)%N -> strings.byte_val (ascii_of_N n) = n.
Proof. intros H. unfold strings.byte_val. now apply N_ascii_embedding. Qed.

Lemma byte_val_bounded c : (strings.byte_val c < 256)%N.
Proof. unfold strings.byte_val. apply N_ascii_bounded. Qed.

(** A byte and its upper-casing are the same letter. *)
Lemma sameLetter_upperByte c : sameLetter c (strings.upperByte c).
Proof.
  unfold strings.upperByte.
  destruct (strings.isLowerByte c) eqn:Hl; [|now left].
  right. left.
  assert (Hb := byte_val_bounded c).
  unfold strings.isLowerByte in Hl. apply andb_prop in Hl. destruct Hl as [H1 H2].
  apply N.leb_le in H1. apply N.leb_le in H2.
  assert (E : strings.byte_val (ascii_of_N (strings.byte_val c - 32))
              = (strings.byte_val c - 32)%N) by (apply byte_val_of_N; lia).
  split.
  - unfold strings.isUpperByte. rewrite E.
    apply andb_true_intro. split; apply N.leb_le; lia.
  - rewrite E. lia.
Qed.

Lemma caseVariant_refl s : caseVariant s s.
Proof.
  induction s as [|c s IH]; [constructor|].
  constructor; [now left | exact IH].
Qed.

Lemma caseVariant_mapBytes s :
  caseVariant s (strings.mapBytes strings.upperByte s).
Proof.
  induction s as [|c s IH]; simpl; [constructor|].
  constructor; [apply sameLetter_upperByte | exact IH].
Qed.

Lemma upperByte_not_lower c : strings.isLowerByte (strings.upperByte c) = false.
Proof.
  unfold strings.upperByte.
  destruct (strings.isLowerByte c) eqn:Hl; [|exact Hl].
  assert (Hb := byte_val_bounded c).
  unfold strings.isLowerByte in *. apply andb_prop in Hl. destruct Hl as [H1 H2].
  apply N.leb_le in H1. apply N.leb_le in H2.
  rewrite byte_val_of_N by lia.
  apply andb_false_iff. left. apply N.leb_gt. lia.
Qed.

Lemma upperByte_ascii c :
  strings.isASCIIByte c = true -> strings.isASCIIByte (strings.upperByte c) = true.
Proof.
  intros Ha. unfold strings.upperByte.
  destruct (strings.isLowerByte c) eqn:Hl; [|exact Ha].
  unfold strings.isASCIIByte in *. apply N.ltb_lt in Ha. apply N.ltb_lt.
  rewrite byte_val_of_N by lia. lia.
Qed.

Lemma mapBytes_upper_no_lower s :
  strings.hasLower (strings.mapBytes strings.upperByte s) = false.
Proof.
  induction s as [|c s IH]; simpl; [reflexivity|].
  now rewrite upperByte_not_lower, IH.
Qed.

Lemma mapBytes_upper_ascii s :
  strings.isASCII s = true ->
  strings.isASCII (strings.mapBytes strings.upperByte s) = true.
Proof.
  induction s as [|c s IH]; simpl; [reflexivity|].
  intros H. apply andb_prop in H. destruct H as [Hc Hs].
  now rewrite upperByte_ascii, IH.
Qed.

(** On the six names the table of levels is one to one. *)
Lemma supportedLevels_injective n1 n2 lvl :
  In (n1, lvl) supportedLevels -> In (n2, lvl) supportedLevels -> n1 = n2.
Proof.
  simpl. intros H1 H2.
  repeat destruct H1 as [H1 | H1]; try contradiction;
    repeat destruct H2 as [H2 | H2]; try contradiction;
    cbv in H1, H2; congruence.
Qed.

Section LevelMapperMore.
Variable unicodeToUpper : string -> string.

(** The two outcomes of [FindLogLevel]. *)
Lemma FindLogLevel_cases s :
  (exists lvl, In (strings.ToUpper unicodeToUpper s, lvl) supportedLevels
               /\ FindLogLevel unicodeToUpper s = (lvl, None))
  \/ (~ In (strings.ToUpper unicodeToUpper s) supportedNames
      /\ FindLogLevel unicodeToUpper s
         = (-1, Some ("unknown log level: " +:+ s))).
Proof.
  unfold FindLogLevel.
  repeat match goal with
  | |- context [String.eqb ?u ?n] =>
      destruct (String.eqb_spec u n) as [Heq | ?];
      [left; eexists; rewrite Heq; split; [|reflexivity]; simpl; tauto|]
  end.
  right. split; [|reflexivity].
  simpl. intros H.
  repeat (destruct H as [H | H]; [symmetry in H; contradiction|]). exact H.
Qed.

(** On an ASCII string [ToUpper] changes letter case only, and applying it
    twice is applying it once. *)
Lemma ToUpper_ascii s :
  strings.isASCII s = true ->
  caseVariant s (strings.ToUpper unicodeToUpper s)
  /\ strings.ToUpper unicodeToUpper (strings.ToUpper unicodeToUpper s)
     = strings.ToUpper unicodeToUpper s.
Proof.
  intros Ha.
  assert (E : strings.ToUpper unicodeToUpper s
              = if negb (strings.hasLower s) then s
                else strings.mapBytes strings.upperByte s).
  { unfold strings.ToUpper. now rewrite Ha. }
  rewrite E. destruct (strings.hasLower s) eqn:Hl; simpl.
  - split; [apply caseVariant_mapBytes|].
    unfold strings.ToUpper.
    rewrite (mapBytes_upper_ascii s Ha), mapBytes_upper_no_lower. reflexivity.
  - split; [apply caseVariant_refl|].
    unfold strings.ToUpper. now rewrite Ha, Hl.
Qed.
End LevelMapperMore.

Section LevelMapperExtras.
Variable unicodeToUpper : string -> string.

(** X1: the converse of case-insensitivity on ASCII input.  When
    [FindLogLevel] accepts an ASCII string (nil error), the string is a
    letter-case variant of one of the six names and the level is that
    name's: nothing is trimmed, no prefix or abbreviation is accepted. *)
Theorem FindLogLevel_accepts_only_case_variants s :
  strings.isASCII s = true ->
  snd (FindLogLevel unicodeToUpper s) = None ->
  exists name lvl,
    In (name, lvl) supportedLevels
    /\ caseVariant s name
    /\ FindLogLevel unicodeToUpper s = (lvl, None).
Proof.
  intros Ha Hok.
  destruct (FindLogLevel_cases unicodeToUpper s) as [(lvl & Hin & E) | (_ & E)].
  - exists (strings.ToUpper unicodeToUpper s), lvl.
    split; [exact Hin|]. split; [|exact E].
    exact (proj1 (ToUpper_ascii unicodeToUpper s Ha)).
  - rewrite E in Hok. discriminate Hok.
Qed.

(** X2: [FindLogLevel] returns a nil error exactly when the upper-cased
    input is one of the six names. *)
Theorem FindLogLevel_success_iff s :
  snd (FindLogLevel unicodeToUpper s) = None
  <-> In (strings.ToUpper unicodeToUpper s) supportedNames.
Proof.
  destruct (FindLogLevel_cases unicodeToUpper s) as [(lvl & Hin & E) | (Hn & E)];
    rewrite E; simpl snd.
  - split; [intros _ | reflexivity].
    unfold supportedNames.
    change (strings.ToUpper unicodeToUpper s)
      with (fst (strings.ToUpper unicodeToUpper s, lvl)).
    now apply in_map.
  - split; [discriminate | intros H; contradiction].
Qed.

(** X3: the level [FindLogLevel] returns is always one of zap's levels from
    debug (-1) to fatal (5) and never DPanicLevel; the -1 that comes with an
    error is the number of DebugLevel. *)
Theorem FindLogLevel_level_range s :
  -1 <= fst (FindLogLevel unicodeToUpper s) <= 5
  /\ fst (FindLogLevel unicodeToUpper s) <> zapcore.DPanicLevel
  /\ (snd (FindLogLevel unicodeToUpper s) <> None ->
      fst (FindLogLevel unicodeToUpper s) = zapcore.DebugLevel).
Proof.
  destruct (FindLogLevel_cases unicodeToUpper s) as [(lvl & Hin & E) | (_ & E)];
    rewrite E; simpl fst; simpl snd.
  - simpl in Hin.
    repeat (destruct Hin as [Hin | Hin];
            [injection Hin as _ <-; cbv;
             repeat split; try discriminate; intros H; now contradiction H|]).
    contradiction.
  - cbv. repeat split; discriminate.
Qed.

(** X4: two inputs accepted with the same level have the same upper-casing:
    no two of the six names share a level. *)
Theorem FindLogLevel_same_level_same_name s1 s2 lvl :
  FindLogLevel unicodeToUpper s1 = (lvl, None) ->
  FindLogLevel unicodeToUpper s2 = (lvl, None) ->
  strings.ToUpper unicodeToUpper s1 = strings.ToUpper unicodeToUpper s2.
Proof.
  intros H1 H2.
  destruct (FindLogLevel_cases unicodeToUpper s1) as [(l1 & Hin1 & E1) | (_ & E1)];
    rewrite E1 in H1; [|discriminate H1].
  destruct (FindLogLevel_cases unicodeToUpper s2) as [(l2 & Hin2 & E2) | (_ & E2)];
    rewrite E2 in H2; [|discriminate H2].
  injection H1 as ->. injection H2 as ->.
  exact (supportedLevels_injective _ _ _ Hin1 Hin2).
Qed.

(** X5: upper-casing an ASCII input before the call changes neither the
    level returned nor whether the call fails. *)
Theorem FindLogLevel_ToUpper_invariant s :
  strings.isASCII s = true ->
  fst (FindLogLevel unicodeToUpper (strings.ToUpper unicodeToUpper s))
  = fst (FindLogLevel unicodeToUpper s)
  /\ (snd (FindLogLevel unicodeToUpper (strings.ToUpper unicodeToUpper s)) = None
      <-> snd (FindLogLevel unicodeToUpper s) = None).
Proof.
  intros Ha. unfold FindLogLevel.
  rewrite (proj2 (ToUpper_ascii unicodeToUpper s Ha)).
  repeat match goal with
  | |- context [String.eqb ?u ?n] =>
      destruct (String.eqb u n); [simpl; tauto|]
  end.
  simpl. split; [reflexivity|]. split; discriminate.
Qed.
End LevelMapperExtras.

Lemma FindLogLevel_accepts_only_case_variants_witness :
  strings.isASCII "Fatal" = true
  /\ snd (FindLogLevel asciiOnly "Fatal") = None
  /\ exists name lvl,
       In (name, lvl) supportedLevels
       /\ caseVariant "Fatal" name
       /\ FindLogLevel asciiOnly "Fatal" = (lvl, None).
Proof.
  split; [reflexivity|]. split; [reflexivity|].
  apply (FindLogLevel_accepts_only_case_variants asciiOnly "Fatal");
    reflexivity.
Defined.

Lemma FindLogLevel_success_iff_witness :
  In (strings.ToUpper asciiOnly "panic") supportedNames
  /\ snd (FindLogLevel asciiOnly "panic") = None.
Proof.
  assert (H : In (strings.ToUpper asciiOnly "panic") supportedNames).
  { vm_compute. tauto. }
  split; [exact H|].
  exact (proj2 (FindLogLevel_success_iff asciiOnly "panic") H).
Defined.

Lemma FindLogLevel_level_range_witness :
  snd (FindLogLevel asciiOnly "verbose") <> None
  /\ fst (FindLogLevel asciiOnly "verbose") = zapcore.DebugLevel.
Proof.
  assert (H : snd (FindLogLevel asciiOnly "verbose") <> None).
  { vm_compute. discriminate. }
  split; [exact H|].
  exact (proj2 (proj2 (FindLogLevel_level_range asciiOnly "verbose")) H).
Defined.

Lemma FindLogLevel_same_level_same_name_witness :
  FindLogLevel asciiOnly "Error" = (zapcore.ErrorLevel, None)
  /\ FindLogLevel asciiOnly "eRROR" = (zapcore.ErrorLevel, None)
  /\ strings.ToUpper asciiOnly "Error" = strings.ToUpper asciiOnly "eRROR".
Proof.
  split; [reflexivity|]. split; [reflexivity|].
  apply (FindLogLevel_same_level_same_name asciiOnly "Error" "eRROR"
           zapcore.ErrorLevel); reflexivity.
Defined.

Lemma FindLogLevel_ToUpper_invariant_witness :
  strings.isASCII "Debug" = true
  /\ fst (FindLogLevel asciiOnly (strings.ToUpper asciiOnly "Debug"))
     = fst (FindLogLevel asciiOnly "Debug").
Proof.
  split; [reflexivity|].
  exact (proj1 (FindLogLevel_ToUpper_invariant asciiOnly "Debug" eq_refl)).
Defined.

(** * Further properties of request identifiers *)

Lemma Value_addLayer ctx key l :
  avoids key l -> context.Value (addLayer ctx l) key = context.Value ctx key.
Proof.
  destruct l as [k v|]; simpl; intros H; [now rewrite decide_False | reflexivity].
Qed.

(** Layers that do not set a key leave its value as it was. *)
Lemma Value_derive layers ctx key :
  Forall (avoids key) layers ->
  context.Value (derive ctx layers) key = context.Value ctx key.
Proof.
  unfold derive. revert ctx.
  induction layers as [|l layers IH]; intros ctx H; simpl; [reflexivity|].
  apply Forall_cons in H. destruct H as [Hl Hls].
  now rewrite (IH _ Hls), Value_addLayer.
Qed.

(** X6: contexts derived from a parent by cancelling constructors and by
    values under other keys carry the parent's request identifier. *)
Theorem RequestIDFromContext_derive ctx layers :
  Forall (avoids context.RequestIDKeyVal) layers ->
  RequestIDFromContext (Some (derive ctx layers))
  = RequestIDFromContext (Some ctx).
Proof.
  intros H. unfold RequestIDFromContext. now rewrite (Value_derive _ _ _ H).
Qed.

(** X7: round trip.  An identifier stored with [context.WithValue] under
    [RequestIDKey{}] is what [RequestIDFromContext] returns, in the context
    itself and in every context derived from it without setting the key
    again, whatever the parent held before. *)
Theorem RequestIDFromContext_roundtrip ctx id layers :
  Forall (avoids context.RequestIDKeyVal) layers ->
  RequestIDFromContext
    (Some (derive (context.WithValue ctx context.RequestIDKeyVal (context.Str id)) layers))
  = id.
Proof.
  intros H. unfold RequestIDFromContext. rewrite (Value_derive _ _ _ H).
  cbn [context.Value]. rewrite decide_True by reflexivity. reflexivity.
Qed.

(** X8: without an identifier the field is still produced: on the nil
    context and on a context where the key was never set
    [WithRequestIDFromContext] gives the field "reqId" with the empty
    string as its value. *)
Theorem WithRequestIDFromContext_missing :
  WithRequestIDFromContext None = zap.String "reqId" ""
  /\ (forall ctx, neverSet ctx context.RequestIDKeyVal ->
        WithRequestIDFromContext (Some ctx) = zap.String "reqId" "").
Proof.
  split; [reflexivity|].
  intros ctx H. unfold WithRequestIDFromContext, RequestIDFromContext.
  now rewrite (Value_neverSet _ _ H).
Qed.

Lemma handlerLayers_avoid : Forall (avoids context.RequestIDKeyVal) handlerLayers.
Proof.
  unfold handlerLayers.
  repeat (apply Forall_cons; split; [simpl; first [exact I | discriminate]|]).
  apply Forall_nil. exact I.
Defined.

Lemma RequestIDFromContext_derive_witness :
  Forall (avoids context.RequestIDKeyVal) handlerLayers
  /\ RequestIDFromContext (Some (derive ctxWithID handlerLayers)) = "abc123".
Proof.
  split; [exact handlerLayers_avoid|].
  rewrite (RequestIDFromContext_derive ctxWithID handlerLayers handlerLayers_avoid).
  reflexivity.
Defined.

Lemma RequestIDFromContext_roundtrip_witness :
  Forall (avoids context.RequestIDKeyVal) handlerLayers
  /\ RequestIDFromContext
       (Some (derive (context.WithValue ctxShadowed context.RequestIDKeyVal
                        (context.Str "r-42")) handlerLayers))
     = "r-42".
Proof.
  split; [exact handlerLayers_avoid|].
  exact (RequestIDFromContext_roundtrip ctxShadowed "r-42" handlerLayers
           handlerLayers_avoid).
Defined.

Lemma WithRequestIDFromContext_missing_witness :
  neverSet ctxNoID context.RequestIDKeyVal
  /\ WithRequestIDFromContext (Some ctxNoID) = zap.String "reqId" "".
Proof.
  assert (N : neverSet ctxNoID context.RequestIDKeyVal).
  { apply neverSet_cancel. apply neverSet_value; [discriminate|].
    apply neverSet_todo. }
  split; [exact N|].
  exact (proj2 WithRequestIDFromContext_missing ctxNoID N).
Defined.

(** * Further properties of logger construction *)

Lemma attachBaseFields_core st logger :
  zap.core (attachBaseFields st logger) = zap.core logger
  /\ zap.addStack (attachBaseFields st logger) = zap.addStack logger
  /\ zap.addCaller (attachBaseFields st logger) = zap.addCaller logger.
Proof.
  unfold attachBaseFields.
  destruct (os.Hostname st) as [host err].
  destruct (String.eqb (os.Getenv st WgCloudEnvironmentID) "");
    destruct (String.eqb (os.Getenv st WgCloudProjectID) "");
    simpl; repeat split.
Qed.

Lemma baseFields_host st :
  exists rest,
    baseFields st
    = zap.String "hostname" (effectiveHost st) :: zap.Int "pid" (os.Getpid st) :: rest.
Proof.
  unfold baseFields, effectiveHost.
  destruct (os.Hostname st) as [name [e|]]; simpl; eexists; reflexivity.
Qed.

Ltac split_eqb :=
  repeat match goal with
  | |- context [String.eqb ?a ""] => destruct (String.eqb_spec a "")
  end.

Ltac field_cases H :=
  repeat (destruct H as [H | H];
          [first [discriminate H | injection H as H; subst]|]);
  try contradiction.

(** X9: the keys of the fields of a structured logger are a subsequence of
    hostname, pid, environmentID, projectID, deploymentID: they come in
    that order and no key occurs twice. *)
Theorem New_field_keys_ordered st debug level :
  zap.fieldKeys (New st false debug level) `sublist_of` baseFieldKeys
  /\ List.NoDup (zap.fieldKeys (New st false debug level)).
Proof.
  assert (S : zap.fieldKeys (New st false debug level) `sublist_of` baseFieldKeys).
  { unfold zap.fieldKeys. rewrite New_structured_fields.
    unfold baseFields, baseFieldKeys. split_eqb; simpl;
      repeat first [apply sublist_skip | apply sublist_cons | apply sublist_nil]. }
  split; [exact S|].
  apply NoDup_ListNoDup.
  eapply sublist_NoDup; [|exact S].
  unfold baseFieldKeys. apply NoDup_ListNoDup.
  repeat (constructor; [simpl; intros H; field_cases H|]). constructor.
Qed.

(** X10: the fields "environmentID" and "projectID" are each gated on their
    own variable: the field with value [v] is present exactly when the
    variable has the non-empty value [v]. *)
Theorem New_environment_project_fields st debug level v :
  (In (zap.String "environmentID" v) (zap.fields (New st false debug level))
   <-> os.Getenv st WgCloudEnvironmentID = v /\ v <> "")
  /\ (In (zap.String "projectID" v) (zap.fields (New st false debug level))
      <-> os.Getenv st WgCloudProjectID = v /\ v <> "").
Proof.
  rewrite New_structured_fields. unfold baseFields.
  split; split_eqb; simpl; (split; [intros H; field_cases H; now split|]);
    intros [E Hv]; subst; try contradiction; tauto.
Qed.

(** X11: the field "deploymentID" carries the value of
    WG_CLOUD_DEPLOYMENT_ID, empty or not, and is present exactly when
    WG_CLOUD_PROJECT_ID is non-empty; so the keys "projectID" and
    "deploymentID" are either both present or both absent. *)
Theorem New_deploymentID_field st debug level :
  (forall v,
     In (zap.String "deploymentID" v) (zap.fields (New st false debug level))
     <-> os.Getenv st WgCloudDeploymentID = v /\ os.Getenv st WgCloudProjectID <> "")
  /\ (In "projectID" (zap.fieldKeys (New st false debug level))
      <-> In "deploymentID" (zap.fieldKeys (New st false debug level))).
Proof.
  unfold zap.fieldKeys. rewrite New_structured_fields. unfold baseFields.
  split; [intros v|]; split_eqb; simpl;
    (split; [intros H; field_cases H; try (now split); tauto|]);
    try (intros [E Hv]; subst; try contradiction; tauto);
    intros H; field_cases H; tauto.
Qed.

(** X12: when the hostname lookup succeeds, a structured logger starts with
    the field "hostname" holding the name the lookup returned (even an
    empty one) and then the field "pid" holding [os.Getpid()]. *)
Theorem New_hostname_pid_first st debug level name :
  os.Hostname st = (name, None) ->
  exists rest,
    zap.fields (New st false debug level)
    = zap.String "hostname" name :: zap.Int "pid" (os.Getpid st) :: rest.
Proof.
  intros H. rewrite New_structured_fields.
  destruct (baseFields_host st) as [rest E]. exists rest. rewrite E.
  unfold effectiveHost. now rewrite H.
Qed.

(** X13: what [New] builds apart from the fields.  The core writes to
    standard output at the level given, with the pretty encoder or the JSON
    encoder according to [prettyLogging]; [debug] alone decides the options:
    stack traces from ErrorLevel and caller annotation, or neither.  None of
    this depends on the process state.  The JSON encoder's configuration has
    the time key "time", durations in seconds and the millisecond time
    encoder. *)
Theorem New_core_options st prettyLogging debug level :
  zap.core (New st prettyLogging debug level)
  = zap.NewCore (if prettyLogging then zap.PrettyEncoder else zapJsonEncoder)
      zap.AddSync_Stdout level
  /\ zap.addStack (New st prettyLogging debug level)
     = (if debug then Some zapcore.ErrorLevel else None)
  /\ zap.addCaller (New st prettyLogging debug level) = debug
  /\ exists ec,
       zapJsonEncoder = zap.JSONEncoder ec
       /\ zap.TimeKey ec = "time"
       /\ zap.EncodeDuration ec = zap.SecondsDurationEncoder
       /\ zap.EncodeTime ec = jsonEncodeTime.
Proof.
  unfold New, newZapLogger.
  destruct prettyLogging.
  - destruct debug; simpl; repeat split; eexists; repeat split.
  - destruct (attachBaseFields_core st
                (zap.New (zap.NewCore zapJsonEncoder zap.AddSync_Stdout level)
                   (if debug
                    then (([] ++ [zap.AddStacktrace zapcore.ErrorLevel])
                          ++ [zap.AddCaller])%list
                    else []))) as (Ec & Es & Eca).
    rewrite Ec, Es, Eca.
    destruct debug; simpl; repeat split; eexists; repeat split.
Qed.

(** X14: the logger depends on the process state only through the
    effective host name, the process id and what [os.Getenv] reports for
    the three WG_CLOUD variables: other variables are not read, an unset
    variable and one set to the empty string are not told apart, and after
    a failed lookup neither the error nor the name matters. *)
Theorem New_depends_on_inputs st st' prettyLogging debug level :
  sameLoggerInputs st st' ->
  New st prettyLogging debug level = New st' prettyLogging debug level.
Proof.
  intros (Hh & Hp & He & Hpr & Hd).
  unfold New, newZapLogger. destruct prettyLogging; [reflexivity|].
  unfold attachBaseFields. rewrite He, Hpr, Hd, Hp.
  unfold effectiveHost in Hh.
  destruct (os.Hostname st) as [n [e|]];
    destruct (os.Hostname st') as [n' [e'|]]; subst; reflexivity.
Qed.

(** X15: [attachBaseFields] only appends.  It keeps the core and the options
    of the logger it is given and the fields the logger already has, in
    order; the fields it adds, between two and five, are the same for every
    logger. *)
Theorem attachBaseFields_appends st :
  exists added,
    2 <= Z.of_nat (length added) <= 5
    /\ forall logger,
         zap.fields (attachBaseFields st logger) = (zap.fields logger ++ added)%list
         /\ zap.core (attachBaseFields st logger) = zap.core logger
         /\ zap.addStack (attachBaseFields st logger) = zap.addStack logger
         /\ zap.addCaller (attachBaseFields st logger) = zap.addCaller logger.
Proof.
  exists (baseFields st). split.
  - unfold baseFields. split_eqb; simpl; lia.
  - intros logger. split; [apply attachBaseFields_fields|].
    apply attachBaseFields_core.
Qed.

Lemma New_environment_project_fields_witness :
  In (zap.String "environmentID" "env-9")
    (zap.fields (New stCloud false false zapcore.InfoLevel))
  /\ ~ In (zap.String "projectID" "proj-1")
         (zap.fields (New stNoProject false false zapcore.InfoLevel)).
Proof.
  split.
  - apply (proj1 (New_environment_project_fields stCloud false zapcore.InfoLevel "env-9")).
    split; [vm_compute; reflexivity | discriminate].
  - intros H.
    apply (proj2 (New_environment_project_fields stNoProject false zapcore.InfoLevel "proj-1")) in H.
    destruct H as [H _]. vm_compute in H. discriminate H.
Defined.

Lemma New_deploymentID_field_witness :
  In (zap.String "deploymentID" "dep-1")
    (zap.fields (New stCloud false true zapcore.WarnLevel)).
Proof.
  apply (proj1 (New_deploymentID_field stCloud true zapcore.WarnLevel) "dep-1").
  split; [vm_compute; reflexivity | vm_compute; discriminate].
Defined.

Lemma New_hostname_pid_first_witness :
  os.Hostname stCloud = ("node-3", None)
  /\ exists rest,
       zap.fields (New stCloud false false zapcore.InfoLevel)
       = zap.String "hostname" "node-3" :: zap.Int "pid" 811 :: rest.
Proof.
  split; [reflexivity|].
  exact (New_hostname_pid_first stCloud false zapcore.InfoLevel "node-3" eq_refl).
Defined.

Lemma New_depends_on_inputs_witness :
  sameLoggerInputs stNoHostname stEmptyVars
  /\ New stNoHostname false true zapcore.ErrorLevel
     = New stEmptyVars false true zapcore.ErrorLevel.
Proof.
  assert (H : sameLoggerInputs stNoHostname stEmptyVars).
  { repeat split; vm_compute; reflexivity. }
  split; [exact H|].
  exact (New_depends_on_inputs stNoHostname stEmptyVars false true
           zapcore.ErrorLevel H).
Defined.

(** * Further properties of the time encoder *)









